(** * A shallow embedding of the request handler of src/main.rs

    The server exposes one route, [POST /hello]; it validates the request,
    parses the body with serde_json, forwards the value to a fixed upstream
    URL with reqwest and relays the upstream's JSON answer.

    The model follows the code:
    - a [Request] carries the method, the path of the URI, the header map
      (names normalised to lower case, as hyper's [HeaderName] stores them)
      and the outcome that buffering its body stream would produce;
    - the asynchronous effects of the handler (buffering the body, issuing
      the outbound POST) are explicit: the handler runs in a small monad
      that threads the log of effects performed so far;
    - serde_json's [from_slice] and [to_string_pretty] are library code, not
      code of this repository: they are Section variables, so every theorem
      holds for whatever they compute;
    - the outbound client is a function from the payload to what the
      upstream does with it (a transport error, or a response whose body
      stream yields some bytes or fails). *)

From Stdlib Require Import String List ZArith Lia Bool.
Import ListNotations.
Open Scope string_scope.
#[local] Set Warnings "-register-all".

(** ** Data model *)

(** [serde_json::Value]. Numbers are kept as integers; floats play no role
    in the handler. *)
Inductive Value : Type :=
| Null
| Bool (b : bool)
| Number (n : Z)
| VString (s : string)
| Array (xs : list Value)
| Object (kvs : list (string * Value)).

(** Byte buffers ([bytes::Bytes]) as strings of bytes. *)
Definition Bytes := string.

(** The outcome of [hyper::body::to_bytes] on a body stream. *)
Inductive BodyStream : Type :=
| BodyBytes (b : Bytes)
| BodyError.

(** [Request<Body>]: method token, [uri().path()], headers, body stream. *)
Record Request : Type := mkRequest {
  req_method : string;
  req_path : string;
  req_headers : list (string * string);
  req_body : BodyStream
}.

(** [hyper::StatusCode] values used by the handler. *)
Definition OK : N := 200.
Definition BAD_REQUEST : N := 400.
Definition NOT_FOUND : N := 404.
Definition UNSUPPORTED_MEDIA_TYPE : N := 415.
Definition BAD_GATEWAY : N := 502.

(** [Response<Body>] with a text body. *)
Record Response : Type := mkResponse {
  status : N;
  body : string
}.

(** [Response::new(body)]: the default status is 200 OK. *)
Definition response_new (b : string) : Response := mkResponse OK b.

(** [Response::builder().status(s).body(b).unwrap()]. *)
Definition response_with (s : N) (b : string) : Response := mkResponse s b.

(** Rust's [Result<T, E>]. *)
Inductive result (T E : Type) : Type :=
| Ok (t : T)
| Err (e : E).
Arguments Ok {T E} t.
Arguments Err {T E} e.

(** [std::convert::Infallible]: no value. *)
Inductive Infallible : Type := .

(** What the outbound client observes for one POST: a transport error
    (its [Display] text) or a response whose body stream is [BodyStream]. *)
Inductive SendOutcome : Type :=
| SendError (e : string)
| SendResponse (b : BodyStream).

(** The upstream as seen through the shared [reqwest::Client]. *)
Definition Client := Value -> SendOutcome.

(** The fixed upstream URL. *)
Definition UPSTREAM_URL : string := "https://postman-echo.com/post".

(** ** Effects *)

(** The effects the handler performs. *)
Inductive Event : Type :=
| EvReadBody
| EvPost (url : string) (payload : Value).

(** A state monad over the log of effects performed so far. *)
Definition IO (A : Type) : Type := list Event -> A * list Event.

Definition ret {A} (a : A) : IO A := fun t => (a, t).
Definition bind {A B} (m : IO A) (k : A -> IO B) : IO B :=
  fun t => let '(a, t') := m t in k a t'.
Definition emit (e : Event) : IO unit := fun t => (tt, (t ++ [e])%list).

Notation "x <- m ;; k" := (bind m (fun x => k))
  (at level 61, m at next level, right associativity).

(** ** Header lookup *)

(** [HeaderMap::get]: the first value stored under the name. *)
Fixpoint header_get (name : string) (hs : list (string * string))
  : option string :=
  match hs with
  | [] => None
  | (n, v) :: hs' => if String.eqb n name then Some v else header_get name hs'
  end.

(** ** Socket addresses *)

(** Decimal text of a number ([Display] of integers); the fuel bounds the
    number of digits, 20 covers every 64-bit value. *)
Fixpoint show_N_fuel (fuel : nat) (n : N) (acc : string) : string :=
  match fuel with
  | O => acc
  | S f =>
      let acc' := String (Ascii.ascii_of_N (48 + N.modulo n 10)) acc in
      if N.ltb n 10 then acc' else show_N_fuel f (N.div n 10) acc'
  end.

Definition show_N (n : N) : string := show_N_fuel 20 n "".

(** [SocketAddr] for IPv4: four octets and a port. *)
Record SocketAddr : Type := mkSocketAddr {
  octets : list N;
  port : N
}.

(** [Display] of an IPv4 socket address: dotted octets, a colon, the port. *)
Definition show_addr (a : SocketAddr) : string :=
  let fix dotted (os : list N) : string :=
    match os with
    | [] => ""
    | [o] => show_N o
    | o :: os' => show_N o ++ "." ++ dotted os'
    end in
  dotted (octets a) ++ ":" ++ show_N (port a).

(** [([127, 0, 0, 1], 3000).into()]. *)
Definition main_addr : SocketAddr := mkSocketAddr [127; 0; 0; 1]%N 3000.

(** ** The handler *)

Section Handler.

(** [serde_json::from_slice::<Value>]: [None] is a parse error. *)
Variable from_slice : Bytes -> option Value.

(** [serde_json::to_string_pretty]: [None] is a serialization error. *)
Variable to_string_pretty : Value -> option string.

(** [is_json_content_type]. *)
Definition is_json_content_type (req : Request) : bool :=
  match header_get "content-type" (req_headers req) with
  | Some v => String.eqb v "application/json"
  | None => false
  end.

(** [read_body]: buffering the body is an effect. *)
Definition read_body (req : Request) : IO (result Bytes Response) :=
  _ <- emit EvReadBody ;;
  match req_body req with
  | BodyBytes b => ret (Ok b)
  | BodyError => ret (Err (response_with BAD_REQUEST "Failed to read body"))
  end.

(** [parse_json]. *)
Definition parse_json (b : Bytes) : result Value Response :=
  match from_slice b with
  | Some v => Ok v
  | None => Err (response_with BAD_REQUEST "Invalid JSON format")
  end.

(** reqwest's [Response::json]: buffer the body, then [from_slice]. *)
Definition resp_json (b : BodyStream) : option Value :=
  match b with
  | BodyBytes bs => from_slice bs
  | BodyError => None
  end.

(** [forward_to_external_api]. *)
Definition forward_to_external_api (client : Client) (data : Value)
  : IO (result Response Response) :=
  _ <- emit (EvPost UPSTREAM_URL data) ;;
  match client data with
  | SendResponse resp =>
      match resp_json resp with
      | Some json_resp =>
          let body := match to_string_pretty json_resp with
                      | Some s => s
                      | None => "Failed to serialize response"
                      end in
          ret (Ok (response_new body))
      | None => ret (Err (response_with BAD_GATEWAY "Failed to decode API response"))
      end
  | SendError e =>
      ret (Err (response_with BAD_GATEWAY ("API request failed: " ++ e)))
  end.

(** [handle_request]. *)
Definition handle_request (req : Request) (client : Client)
  : IO (result Response Infallible) :=
  if String.eqb (req_method req) "POST" && String.eqb (req_path req) "/hello" then
    if negb (is_json_content_type req) then
      ret (Ok (response_with UNSUPPORTED_MEDIA_TYPE "Expected application/json"))
    else
      b <- read_body req ;;
      match b with
      | Err resp => ret (Ok resp)
      | Ok body =>
          match parse_json body with
          | Err resp => ret (Ok resp)
          | Ok data =>
              r <- forward_to_external_api client data ;;
              match r with
              | Ok resp => ret (Ok resp)
              | Err resp => ret (Ok resp)
              end
          end
      end
  else
    ret (Ok (response_with NOT_FOUND "Not Found")).

(** Running the handler on one request from a log of effects. *)
Definition run_handler (req : Request) (client : Client) (t : list Event)
  : result Response Infallible * list Event :=
  handle_request req client t.

(** The response of one run (the [Err] side is uninhabited). *)
Definition response_of (r : result Response Infallible) : Response :=
  match r with
  | Ok resp => resp
  | Err e => match e with end
  end.

(** The effects of one request, run from an empty log. *)
Definition effects (req : Request) (client : Client) : list Event :=
  snd (run_handler req client []).

(** The response of one request. *)
Definition respond (req : Request) (client : Client) : Response :=
  response_of (fst (run_handler req client [])).

(** The server: each request is handled with a clone of the same client;
    the only thing threaded from one request to the next is the log of
    effects. *)
Fixpoint serve (client : Client) (reqs : list Request) (t : list Event)
  : list Response * list Event :=
  match reqs with
  | [] => ([], t)
  | r :: rs =>
      let '(res, t') := run_handler r client t in
      let '(out, t'') := serve client rs t' in
      (response_of res :: out, t'')
  end.

(** ** Start-up: [main] *)

(** The outputs of the process: lines on standard output and standard
    error, the listening socket being bound, a panic with its message, and
    a request handled by the service with the response sent back. *)
Inductive Output : Type :=
| Stdout (line : string)
| Stderr (line : string)
| Bound (a : SocketAddr)
| Panic (msg : string)
| Handled (req : Request) (resp : Response).

(** [main]. The runtime supplies: the outcome of building the reqwest
    client ([Err] carries the error's [Debug] text), the outcome of binding
    the socket ([Some e] is the bind error), the requests handled on each
    accepted connection in the order they are served, and how [server.await]
    ends ([Some e] is a server error, [None] means it is still serving).
    [expect] panics with its message, a colon and the error; hyper's
    [Server::bind] panics with "error binding to {addr}: {e}"; every
    connection and every request gets a clone of the one client. *)
Definition main (build : result Client string) (bind_err : option string)
  (conns : list (list Request)) (stop : option string) : list Output :=
  match build with
  | Err e => [Panic ("Failed to build reqwest client: " ++ e)]
  | Ok client =>
      Stdout ("Listening on http://" ++ show_addr main_addr) ::
      match bind_err with
      | Some e => [Panic ("error binding to " ++ show_addr main_addr ++ ": " ++ e)]
      | None =>
          Bound main_addr ::
          (concat (map (fun conn => map (fun r => Handled r (respond r client)) conn) conns) ++
           match stop with
           | Some e => [Stderr ("Server error: " ++ e)]
           | None => []
           end)%list
      end
  end.

End Handler.

(** ** Concrete instances

    Small stand-ins for serde_json and for the upstream, used to run the
    handler on concrete requests. *)

(** A parser for a few JSON texts. *)
Definition sample_from_slice (b : Bytes) : option Value :=
  if String.eqb b "null" then Some Null
  else if String.eqb b "true" then Some (Bool true)
  else if String.eqb b "[]" then Some (Array [])
  else None.

(** A printer that fails on arrays, standing in for a failing
    serializer. *)
Definition sample_to_string_pretty (v : Value) : option string :=
  match v with
  | Null => Some "null"
  | Bool true => Some "true"
  | Bool false => Some "false"
  | _ => None
  end.

(** An upstream that answers [true]. *)
Definition true_client : Client := fun _ => SendResponse (BodyBytes "true").
(** An upstream that answers an empty array. *)
Definition array_client : Client := fun _ => SendResponse (BodyBytes "[]").
(** An unreachable upstream. *)
Definition refused_client : Client := fun _ => SendError "connection refused".
(** An upstream that answers with HTML. *)
Definition html_client : Client := fun _ => SendResponse (BodyBytes "<html>").

Definition hello_request (ct : string) (b : BodyStream) : Request :=
  mkRequest "POST" "/hello" [("content-type", ct)] b.

(** ** Properties *)

Section Properties.

Variable from_slice : Bytes -> option Value.
Variable to_string_pretty : Value -> option string.

Let respond' := respond from_slice to_string_pretty.
Let effects' := effects from_slice to_string_pretty.

(** A request passes the inbound gate with body [b] parsed as [v]: the
    method is POST, the path is /hello, the content type is exactly
    application/json, the body is buffered as [b] and [b] parses as [v]. *)
Definition passes_gate (req : Request) (b : Bytes) (v : Value) : Prop :=
  req_method req = "POST" /\ req_path req = "/hello" /\
  header_get "content-type" (req_headers req) = Some "application/json" /\
  req_body req = BodyBytes b /\ from_slice b = Some v.

(** The number of outbound POSTs in a log of effects. *)
Fixpoint posts (t : list Event) : nat :=
  match t with
  | [] => 0
  | EvPost _ _ :: t' => S (posts t')
  | EvReadBody :: t' => posts t'
  end.

(** The number of body reads in a log of effects. *)
Fixpoint body_reads (t : list Event) : nat :=
  match t with
  | [] => 0
  | EvReadBody :: t' => S (body_reads t')
  | EvPost _ _ :: t' => body_reads t'
  end.

Ltac unfold_handler :=
  unfold respond', effects', respond, effects, run_handler, handle_request,
    read_body, parse_json, forward_to_external_api, is_json_content_type,
    response_of, bind, ret, emit in *.

Ltac split_matches client :=
  repeat (cbn; match goal with
  | |- context [if ?b then _ else _] => destruct b eqn:?
  | |- context [req_body ?r] => destruct (req_body r) eqn:?
  | |- context [from_slice ?b] => destruct (from_slice b) eqn:?
  | |- context [client ?v] => destruct (client v) eqn:?
  | |- context [resp_json ?f ?b] => destruct (resp_json f b) eqn:?
  | |- context [to_string_pretty ?v] => destruct (to_string_pretty v) eqn:?
  end).

(** Running the handler from a non-empty log only appends its effects. *)
Lemma handle_request_log (req : Request) (client : Client) (t : list Event) :
  handle_request from_slice to_string_pretty req client t =
  (fst (handle_request from_slice to_string_pretty req client []),
   (t ++ snd (handle_request from_slice to_string_pretty req client []))%list).
Proof.
  unfold_handler; split_matches client; rewrite ?app_nil_r, <- ?app_assoc;
    reflexivity.
Qed.

Lemma gate_method_path (req : Request) :
  req_method req = "POST" -> req_path req = "/hello" ->
  (String.eqb (req_method req) "POST" && String.eqb (req_path req) "/hello")%bool
  = true.
Proof. intros Hm Hp; rewrite Hm, Hp; reflexivity. Qed.

Lemma gate_content_type (req : Request) :
  header_get "content-type" (req_headers req) = Some "application/json" ->
  is_json_content_type req = true.
Proof. intros H; unfold is_json_content_type; rewrite H; reflexivity. Qed.

(** Evaluating the handler on a request that passes the gate. *)
Lemma handle_passes_gate (req : Request) (client : Client) (b : Bytes) (v : Value) :
  passes_gate req b v ->
  handle_request from_slice to_string_pretty req client [] =
  (let '(r, t) := forward_to_external_api from_slice to_string_pretty client v [EvReadBody] in
   (match r with Ok resp => Ok resp | Err resp => Ok resp end, t)).
Proof.
  intros (Hm & Hp & Hc & Hb & Hv).
  unfold handle_request; rewrite gate_method_path by assumption.
  rewrite (gate_content_type _ Hc); simpl.
  unfold read_body, bind, emit, ret; rewrite Hb; simpl.
  unfold parse_json; rewrite Hv.
  unfold bind; destruct (forward_to_external_api _ _ _ _ _); destruct r; reflexivity.
Qed.

(** The terminal responses of the handler. *)
Definition terminal_response (resp : Response) : Prop :=
  (status resp = NOT_FOUND /\ body resp = "Not Found") \/
  (status resp = UNSUPPORTED_MEDIA_TYPE /\ body resp = "Expected application/json") \/
  (status resp = BAD_REQUEST /\
     (body resp = "Failed to read body" \/ body resp = "Invalid JSON format")) \/
  (status resp = BAD_GATEWAY /\
     (body resp = "Failed to decode API response" \/
      exists e, body resp = ("API request failed: " ++ e)%string)) \/
  status resp = OK.

(** The upstream fails for payload [v]: a transport error whose text is
    in the body, or a response whose body does not decode as JSON. *)
Definition upstream_failure (client : Client) (v : Value) (resp : Response) : Prop :=
  status resp = BAD_GATEWAY /\
  ((exists e, client v = SendError e /\ body resp = ("API request failed: " ++ e)%string) \/
   (exists rb, client v = SendResponse rb /\ resp_json from_slice rb = None /\
               body resp = "Failed to decode API response")).

(** The response the outbound relay produces for payload [v], once the
    body has been read. *)
Definition relay (client : Client) (v : Value) : Response :=
  response_of
    (match fst (forward_to_external_api from_slice to_string_pretty client v [EvReadBody]) with
     | Ok r => Ok r
     | Err r => Ok r
     end).

(** Evaluating the handler on a request that passes the gate, from the
    empty log. *)
Lemma respond_passes_gate (req : Request) (client : Client) (b : Bytes) (v : Value) :
  passes_gate req b v ->
  respond' req client = relay client v /\
  effects' req client = [EvReadBody; EvPost UPSTREAM_URL v].
Proof.
  intros Hg; unfold respond', effects', respond, effects, run_handler, relay.
  rewrite (handle_passes_gate _ client _ _ Hg).
  unfold forward_to_external_api, bind, emit, ret; cbn.
  destruct (client v) as [e | rb]; [split; reflexivity |].
  destruct (resp_json from_slice rb); split; reflexivity.
Qed.

(** The outcomes of the relay. *)
Lemma relay_cases (client : Client) (v : Value) :
  upstream_failure client v (relay client v) \/
  (status (relay client v) = OK /\
   exists rb u, client v = SendResponse rb /\ resp_json from_slice rb = Some u).
Proof.
  unfold relay, upstream_failure, forward_to_external_api, bind, emit, ret; cbn.
  destruct (client v) as [e | rb].
  - left; split; [reflexivity |]; left; exists e; split; reflexivity.
  - destruct (resp_json from_slice rb) as [u |] eqn:Hj.
    + right; split; [reflexivity |]; exists rb, u; split; [reflexivity | exact Hj].
    + left; split; [reflexivity |]; right; exists rb; repeat split; assumption.
Qed.

(** Every run of the handler takes one of five paths. *)
Lemma handle_cases (req : Request) (client : Client) :
  ((req_method req <> "POST" \/ req_path req <> "/hello") /\
     respond' req client = mkResponse NOT_FOUND "Not Found" /\
     effects' req client = []) \/
  (req_method req = "POST" /\ req_path req = "/hello" /\
     header_get "content-type" (req_headers req) <> Some "application/json" /\
     respond' req client = mkResponse UNSUPPORTED_MEDIA_TYPE "Expected application/json" /\
     effects' req client = []) \/
  (req_method req = "POST" /\ req_path req = "/hello" /\
     header_get "content-type" (req_headers req) = Some "application/json" /\
     req_body req = BodyError /\
     respond' req client = mkResponse BAD_REQUEST "Failed to read body" /\
     effects' req client = [EvReadBody]) \/
  (exists b, req_method req = "POST" /\ req_path req = "/hello" /\
     header_get "content-type" (req_headers req) = Some "application/json" /\
     req_body req = BodyBytes b /\ from_slice b = None /\
     respond' req client = mkResponse BAD_REQUEST "Invalid JSON format" /\
     effects' req client = [EvReadBody]) \/
  (exists b v, passes_gate req b v /\
     respond' req client = relay client v /\
     effects' req client = [EvReadBody; EvPost UPSTREAM_URL v]).
Proof.
  unfold respond', effects', respond, effects, run_handler.
  destruct (String.eqb_spec (req_method req) "POST") as [Hm | Hm];
  [destruct (String.eqb_spec (req_path req) "/hello") as [Hp | Hp] |].
  3: { left; unfold handle_request; rewrite (proj2 (String.eqb_neq _ _) Hm);
       repeat split; auto. }
  2: { left; unfold handle_request; rewrite (proj2 (String.eqb_neq _ _) Hp), andb_false_r;
       repeat split; auto. }
  destruct (header_get "content-type" (req_headers req)) as [ct |] eqn:Hh;
  [destruct (String.eqb_spec ct "application/json") as [Hct | Hct]; [subst ct |] |].
  2, 3: right; left; unfold handle_request, is_json_content_type;
       rewrite gate_method_path, Hh by assumption;
       try rewrite (proj2 (String.eqb_neq _ _) Hct);
       repeat split; auto; congruence.
  destruct (req_body req) as [b |] eqn:Hb.
  2: { right; right; left; unfold handle_request;
       rewrite gate_method_path by assumption; rewrite (gate_content_type _ Hh); cbn;
       unfold read_body, bind, emit, ret; rewrite Hb; repeat split; auto. }
  destruct (from_slice b) as [v |] eqn:Hv.
  - right; right; right; right; exists b, v.
    assert (Hg : passes_gate req b v) by (repeat split; assumption).
    split; [exact Hg |]; exact (respond_passes_gate req client b v Hg).
  - right; right; right; left; exists b; unfold handle_request;
    rewrite gate_method_path by assumption; rewrite (gate_content_type _ Hh); cbn;
    unfold read_body, parse_json, bind, emit, ret; rewrite Hb; cbn; rewrite Hv;
    repeat split; auto.
Qed.

(** The server loop: the response to each request is the response of that
    request alone, and the log only grows by each request's own effects. *)
Lemma serve_log (client : Client) (reqs : list Request) (t : list Event) :
  serve from_slice to_string_pretty client reqs t =
  (map (fun r => respond' r client) reqs,
   (t ++ concat (map (fun r => effects' r client) reqs))%list).
Proof.
  revert t; induction reqs as [| r rs IH]; intros t; cbn.
  - rewrite app_nil_r; reflexivity.
  - unfold run_handler at 1; rewrite handle_request_log; rewrite IH.
    rewrite app_assoc; reflexivity.
Qed.

(** ** Claims *)

(** C1: a POST /hello with content type application/json whose body parses
    as JSON, forwarded to an upstream whose answer decodes as the JSON value
    [u], gets status 200 and the pretty-printed text of [u] as its body;
    the handler read the body once and posted the payload once. *)
Theorem hello_relays_upstream_json (req : Request) (client : Client)
  (b : Bytes) (v : Value) (rb : BodyStream) (u : Value) (s : string) :
  passes_gate req b v ->
  client v = SendResponse rb ->
  resp_json from_slice rb = Some u ->
  to_string_pretty u = Some s ->
  respond' req client = mkResponse OK s /\
  effects' req client = [EvReadBody; EvPost UPSTREAM_URL v].
Proof.
  intros Hg Hc Hj Hs.
  destruct (respond_passes_gate req client b v Hg) as [-> ->].
  unfold relay, forward_to_external_api, bind, emit, ret; cbn.
  rewrite Hc, Hj, Hs; split; reflexivity.
Qed.

(** C2: when pretty-printing the decoded upstream value fails, the body is
    the text "Failed to serialize response" and the status is still 200. *)
Theorem hello_serialize_failure_is_200 (req : Request) (client : Client)
  (b : Bytes) (v : Value) (rb : BodyStream) (u : Value) :
  passes_gate req b v ->
  client v = SendResponse rb ->
  resp_json from_slice rb = Some u ->
  to_string_pretty u = None ->
  respond' req client = mkResponse OK "Failed to serialize response".
Proof.
  intros Hg Hc Hj Hs.
  destruct (respond_passes_gate req client b v Hg) as [-> _].
  unfold relay, forward_to_external_api, bind, emit, ret; cbn.
  rewrite Hc, Hj, Hs; reflexivity.
Qed.

(** C3: a request whose method is not POST or whose path is not /hello gets
    404 with the text "Not Found", whatever its headers and body, and the
    handler performs no effect. *)
Theorem not_hello_is_404 (req : Request) (client : Client) :
  req_method req <> "POST" \/ req_path req <> "/hello" ->
  respond' req client = mkResponse NOT_FOUND "Not Found" /\
  effects' req client = [].
Proof.
  intros H.
  assert (Hf : (String.eqb (req_method req) "POST" &&
                String.eqb (req_path req) "/hello")%bool = false).
  { destruct H as [H | H].
    - apply String.eqb_neq in H; rewrite H; reflexivity.
    - apply String.eqb_neq in H; rewrite H, andb_false_r; reflexivity. }
  unfold respond', effects', respond, effects, run_handler, handle_request.
  rewrite Hf; split; reflexivity.
Qed.

(** C4: a POST /hello whose content type is absent or differs from
    application/json gets 415, and the handler neither reads the body nor
    calls the upstream. *)
Theorem wrong_content_type_is_415 (req : Request) (client : Client) :
  req_method req = "POST" -> req_path req = "/hello" ->
  header_get "content-type" (req_headers req) <> Some "application/json" ->
  respond' req client = mkResponse UNSUPPORTED_MEDIA_TYPE "Expected application/json" /\
  effects' req client = [].
Proof.
  intros Hm Hp Hc.
  assert (Hf : is_json_content_type req = false).
  { unfold is_json_content_type.
    destruct (header_get "content-type" (req_headers req)) as [ct |]; [| reflexivity].
    apply String.eqb_neq; intros ->; apply Hc; reflexivity. }
  unfold respond', effects', respond, effects, run_handler, handle_request.
  rewrite gate_method_path by assumption; rewrite Hf; split; reflexivity.
Qed.

(** C5: a POST /hello with content type application/json whose body is not
    valid JSON gets 400 with the text "Invalid JSON format"; the only
    effect is reading the body, there is no upstream call. *)
Theorem invalid_json_is_400 (req : Request) (client : Client) (b : Bytes) :
  req_method req = "POST" -> req_path req = "/hello" ->
  header_get "content-type" (req_headers req) = Some "application/json" ->
  req_body req = BodyBytes b ->
  from_slice b = None ->
  respond' req client = mkResponse BAD_REQUEST "Invalid JSON format" /\
  effects' req client = [EvReadBody].
Proof.
  intros Hm Hp Hc Hb Hv.
  unfold respond', effects', respond, effects, run_handler, handle_request.
  rewrite gate_method_path by assumption; rewrite (gate_content_type _ Hc); cbn.
  unfold read_body, parse_json, bind, emit, ret; rewrite Hb; cbn.
  rewrite Hv; split; reflexivity.
Qed.

(** C6: for a payload that passed the gate, a transport error gives 502
    with "API request failed: " followed by the error text, and an upstream
    answer that does not decode as JSON gives 502 with "Failed to decode API
    response"; every 502 response is one of these two cases. *)
Theorem upstream_failures_are_502 (req : Request) (client : Client) :
  (forall b v e, passes_gate req b v -> client v = SendError e ->
     respond' req client = mkResponse BAD_GATEWAY ("API request failed: " ++ e)) /\
  (forall b v rb, passes_gate req b v -> client v = SendResponse rb ->
     resp_json from_slice rb = None ->
     respond' req client = mkResponse BAD_GATEWAY "Failed to decode API response") /\
  (status (respond' req client) = BAD_GATEWAY ->
     exists b v, passes_gate req b v /\ upstream_failure client v (respond' req client)).
Proof.
  split; [| split].
  - intros b v e Hg Hc.
    destruct (respond_passes_gate req client b v Hg) as [-> _].
    unfold relay, forward_to_external_api, bind, emit, ret; cbn.
    rewrite Hc; reflexivity.
  - intros b v rb Hg Hc Hj.
    destruct (respond_passes_gate req client b v Hg) as [-> _].
    unfold relay, forward_to_external_api, bind, emit, ret; cbn.
    rewrite Hc, Hj; reflexivity.
  - intros H502.
    destruct (handle_cases req client)
      as [(_ & Hr & _) | [(_ & _ & _ & Hr & _) | [(_ & _ & _ & _ & Hr & _) |
          [(b & _ & _ & _ & _ & _ & Hr & _) | (b & v & Hg & Hr & _)]]]];
      rewrite Hr in *; try discriminate.
    exists b, v; split; [exact Hg |].
    destruct (relay_cases client v) as [Hf | (Hok & _)]; [exact Hf |].
    rewrite Hok in H502; discriminate.
Qed.

(** C7: a POST /hello with content type application/json whose body cannot
    be read gets 400 with the text "Failed to read body"; the only effect
    is the attempted read, there is no upstream call. *)
Theorem unreadable_body_is_400 (req : Request) (client : Client) :
  req_method req = "POST" -> req_path req = "/hello" ->
  header_get "content-type" (req_headers req) = Some "application/json" ->
  req_body req = BodyError ->
  respond' req client = mkResponse BAD_REQUEST "Failed to read body" /\
  effects' req client = [EvReadBody].
Proof.
  intros Hm Hp Hc Hb.
  unfold respond', effects', respond, effects, run_handler, handle_request.
  rewrite gate_method_path by assumption; rewrite (gate_content_type _ Hc); cbn.
  unfold read_body, bind, emit, ret; rewrite Hb; split; reflexivity.
Qed.

(** C8: from any log of effects, the handler returns exactly one response
    ([Ok], never an error), only appends its own effects, the response is
    one of the terminal responses (404, 415, 400 with two texts, 502 with
    two texts, 200), and the body is read at most once and the upstream is
    called at most once (no retry). *)
Theorem handler_total_terminal (req : Request) (client : Client) (t : list Event) :
  exists resp,
    handle_request from_slice to_string_pretty req client t =
      (Ok resp, (t ++ effects' req client)%list) /\
    terminal_response resp /\
    posts (effects' req client) <= 1 /\ body_reads (effects' req client) <= 1.
Proof.
  exists (respond' req client).
  rewrite handle_request_log.
  split.
  - unfold respond', effects', respond, effects, run_handler.
    destruct (fst (handle_request from_slice to_string_pretty req client [])) as [r | []].
    reflexivity.
  - unfold terminal_response.
    destruct (handle_cases req client)
      as [(_ & Hr & He) | [(_ & _ & _ & Hr & He) | [(_ & _ & _ & _ & Hr & He) |
          [(b & _ & _ & _ & _ & _ & Hr & He) | (b & v & Hg & Hr & He)]]]];
      rewrite Hr, He; cbn.
    + split; [left; split; reflexivity | lia].
    + split; [right; left; split; reflexivity | lia].
    + split; [right; right; left; split; [reflexivity | left; reflexivity] | lia].
    + split; [right; right; left; split; [reflexivity | right; reflexivity] | lia].
    + split; [| lia].
      destruct (relay_cases client v) as [(H502 & Hb) | (Hok & _)].
      * right; right; right; left; split; [exact H502 |].
        destruct Hb as [(e & _ & He') | (rb & _ & _ & He')].
        -- right; exists e; exact He'.
        -- left; exact He'.
      * right; right; right; right; exact Hok.
Qed.

(** C9: the handler keeps no state: from any two prior logs the same
    request and the same upstream give the same response; a sequence of
    requests served one after the other gets, for each request, the
    response of that request alone; and repeating a request that passes the
    gate, with an upstream that answers with JSON, gives the same 200
    response every time. *)
Theorem handler_stateless (client : Client) :
  (forall req t1 t2,
     response_of (fst (handle_request from_slice to_string_pretty req client t1)) =
     response_of (fst (handle_request from_slice to_string_pretty req client t2))) /\
  (forall reqs t,
     fst (serve from_slice to_string_pretty client reqs t) =
     map (fun r => respond' r client) reqs) /\
  (forall req b v rb u n,
     passes_gate req b v -> client v = SendResponse rb ->
     resp_json from_slice rb = Some u ->
     fst (serve from_slice to_string_pretty client (repeat req n) []) =
       repeat (respond' req client) n /\
     status (respond' req client) = OK).
Proof.
  split; [| split].
  - intros req t1 t2; rewrite (handle_request_log req client t1),
      (handle_request_log req client t2); reflexivity.
  - intros reqs t; rewrite serve_log; reflexivity.
  - intros req b v rb u n Hg Hc Hj.
    rewrite serve_log, map_repeat; split; [reflexivity |].
    destruct (respond_passes_gate req client b v Hg) as [-> _].
    destruct (relay_cases client v) as [(_ & [(e & He & _) | (rb' & He & Hn & _)]) | (Hok & _)].
    + congruence.
    + rewrite Hc in He; injection He as <-; congruence.
    + exact Hok.
Qed.

(** C10: the upstream is called only for a request that passed the whole
    gate (method, path, content type, body read, JSON parse), with the
    parsed payload, at the fixed URL and after the body read; a 404
    carries the text "Not Found" and a 415 the text "Expected
    application/json". *)
Theorem upstream_only_after_gate (req : Request) (client : Client) :
  (forall url v, In (EvPost url v) (effects' req client) ->
     url = UPSTREAM_URL /\
     effects' req client = [EvReadBody; EvPost UPSTREAM_URL v] /\
     exists b, passes_gate req b v) /\
  (status (respond' req client) = NOT_FOUND ->
     body (respond' req client) = "Not Found") /\
  (status (respond' req client) = UNSUPPORTED_MEDIA_TYPE ->
     body (respond' req client) = "Expected application/json").
Proof.
  destruct (handle_cases req client)
    as [(_ & Hr & He) | [(_ & _ & _ & Hr & He) | [(_ & _ & _ & _ & Hr & He) |
        [(b & _ & _ & _ & _ & _ & Hr & He) | (b & v & Hg & Hr & He)]]]];
    rewrite Hr, He.
  1-4: split; [intros url w Hin; cbn in Hin;
               repeat (destruct Hin as [Hin | Hin]; [discriminate |]); contradiction |].
  1-4: split; intros Hs; try reflexivity; discriminate.
  split; [| destruct (relay_cases client v) as [(H502 & _) | (Hok & _)];
            rewrite ?H502, ?Hok; split; intros Hs; discriminate].
  intros url w Hin; cbn in Hin.
  destruct Hin as [Hin | [Hin | []]]; [discriminate |].
  injection Hin as -> ->; split; [reflexivity | split; [reflexivity |]].
  exists b; exact Hg.
Qed.

End Properties.

(** ** Runs on concrete requests *)

Lemma hello_relays_upstream_json_witness :
  respond sample_from_slice sample_to_string_pretty
    (hello_request "application/json" (BodyBytes "null")) true_client =
    mkResponse OK "true" /\
  effects sample_from_slice sample_to_string_pretty
    (hello_request "application/json" (BodyBytes "null")) true_client =
    [EvReadBody; EvPost UPSTREAM_URL Null].
Proof.
  apply (hello_relays_upstream_json sample_from_slice sample_to_string_pretty
           _ true_client "null" Null (BodyBytes "true") (Bool true) "true");
    try reflexivity.
  repeat split.
Defined.

Lemma hello_serialize_failure_is_200_witness :
  respond sample_from_slice sample_to_string_pretty
    (hello_request "application/json" (BodyBytes "true")) array_client =
    mkResponse OK "Failed to serialize response".
Proof.
  apply (hello_serialize_failure_is_200 sample_from_slice sample_to_string_pretty
           _ array_client "true" (Bool true) (BodyBytes "[]") (Array []));
    try reflexivity.
  repeat split.
Defined.

Lemma not_hello_is_404_witness :
  respond sample_from_slice sample_to_string_pretty
    (mkRequest "GET" "/hello" [("content-type", "application/json")] BodyError)
    true_client = mkResponse NOT_FOUND "Not Found" /\
  effects sample_from_slice sample_to_string_pretty
    (mkRequest "GET" "/hello" [("content-type", "application/json")] BodyError)
    true_client = [].
Proof.
  apply not_hello_is_404; left; discriminate.
Defined.

Lemma wrong_content_type_is_415_witness :
  respond sample_from_slice sample_to_string_pretty
    (hello_request "application/json; charset=utf-8" (BodyBytes "null")) true_client =
    mkResponse UNSUPPORTED_MEDIA_TYPE "Expected application/json" /\
  effects sample_from_slice sample_to_string_pretty
    (hello_request "application/json; charset=utf-8" (BodyBytes "null")) true_client = [].
Proof.
  apply wrong_content_type_is_415; try reflexivity; discriminate.
Defined.

Lemma invalid_json_is_400_witness :
  respond sample_from_slice sample_to_string_pretty
    (hello_request "application/json" (BodyBytes "{")) true_client =
    mkResponse BAD_REQUEST "Invalid JSON format" /\
  effects sample_from_slice sample_to_string_pretty
    (hello_request "application/json" (BodyBytes "{")) true_client = [EvReadBody].
Proof.
  apply (invalid_json_is_400 sample_from_slice sample_to_string_pretty _ _ "{");
    reflexivity.
Defined.

Lemma upstream_failures_are_502_witness :
  respond sample_from_slice sample_to_string_pretty
    (hello_request "application/json" (BodyBytes "null")) refused_client =
    mkResponse BAD_GATEWAY "API request failed: connection refused" /\
  respond sample_from_slice sample_to_string_pretty
    (hello_request "application/json" (BodyBytes "null")) html_client =
    mkResponse BAD_GATEWAY "Failed to decode API response".
Proof.
  split.
  - apply (proj1 (upstream_failures_are_502 sample_from_slice sample_to_string_pretty
                    _ refused_client) "null" Null "connection refused");
      [repeat split | reflexivity].
  - apply (proj1 (proj2 (upstream_failures_are_502 sample_from_slice
                           sample_to_string_pretty _ html_client))
             "null" Null (BodyBytes "<html>"));
      [repeat split | reflexivity | reflexivity].
Defined.

Lemma unreadable_body_is_400_witness :
  respond sample_from_slice sample_to_string_pretty
    (hello_request "application/json" BodyError) true_client =
    mkResponse BAD_REQUEST "Failed to read body" /\
  effects sample_from_slice sample_to_string_pretty
    (hello_request "application/json" BodyError) true_client = [EvReadBody].
Proof.
  apply unreadable_body_is_400; reflexivity.
Defined.

Lemma handler_stateless_witness :
  fst (serve sample_from_slice sample_to_string_pretty true_client
         (repeat (hello_request "application/json" (BodyBytes "null")) 3) []) =
    repeat (respond sample_from_slice sample_to_string_pretty
              (hello_request "application/json" (BodyBytes "null")) true_client) 3 /\
  status (respond sample_from_slice sample_to_string_pretty
            (hello_request "application/json" (BodyBytes "null")) true_client) = OK.
Proof.
  apply (proj2 (proj2 (handler_stateless sample_from_slice sample_to_string_pretty
                         true_client))
           _ "null" Null (BodyBytes "true") (Bool true) 3);
    [repeat split | reflexivity | reflexivity].
Defined.

Lemma upstream_only_after_gate_witness :
  exists b, passes_gate sample_from_slice
              (hello_request "application/json" (BodyBytes "null")) b Null.
Proof.
  apply (proj1 (upstream_only_after_gate sample_from_slice sample_to_string_pretty
                  (hello_request "application/json" (BodyBytes "null")) true_client)
           UPSTREAM_URL Null).
  cbn; right; left; reflexivity.
Defined.

(** ** Further properties of the code *)

Section Extras.

Variable from_slice : Bytes -> option Value.
Variable to_string_pretty : Value -> option string.

Lemma header_get_skip (name : string) (pre post : list (string * string)) :
  Forall (fun h => fst h <> name) pre ->
  header_get name (pre ++ post) = header_get name post.
Proof.
  induction 1 as [| [n v] pre Hn _ IH]; [reflexivity |].
  cbn in *; rewrite IH; apply String.eqb_neq in Hn; rewrite Hn; reflexivity.
Qed.

(** The content type is decided by the first content-type header alone:
    the check holds exactly when its value is, byte for byte,
    application/json; later content-type headers are not looked at. *)
Theorem is_json_content_type_first_header (req : Request)
  (pre post : list (string * string)) (v : string) :
  req_headers req = (pre ++ ("content-type", v) :: post)%list ->
  Forall (fun h => fst h <> "content-type") pre ->
  (is_json_content_type req = true <-> v = "application/json").
Proof.
  intros Hh Hpre; unfold is_json_content_type; rewrite Hh, header_get_skip by exact Hpre.
  cbn; apply String.eqb_eq.
Qed.

(** Without a content-type header the check fails. *)
Theorem is_json_content_type_absent (req : Request) :
  Forall (fun h => fst h <> "content-type") (req_headers req) ->
  is_json_content_type req = false.
Proof.
  intros H; unfold is_json_content_type.
  rewrite <- (app_nil_r (req_headers req)), header_get_skip by exact H; reflexivity.
Qed.

(** The outbound relay's result tag matches its status: an [Ok] response
    has status 200, an [Err] response status 502, whatever the upstream
    does and whatever the log. *)
Theorem forward_status_by_tag (client : Client) (data : Value) (t : list Event) :
  match fst (forward_to_external_api from_slice to_string_pretty client data t) with
  | Ok r => status r = OK
  | Err r => status r = BAD_GATEWAY
  end.
Proof.
  unfold forward_to_external_api, bind, emit, ret; cbn.
  destruct (client data) as [e | rb]; [reflexivity |].
  destruct (resp_json from_slice rb); reflexivity.
Qed.

(** The outbound relay posts exactly once, to the fixed URL, the payload it
    was given unchanged, whatever the upstream answers: no retry. *)
Theorem forward_posts_payload_once (client : Client) (data : Value) (t : list Event) :
  snd (forward_to_external_api from_slice to_string_pretty client data t) =
  (t ++ [EvPost UPSTREAM_URL data])%list.
Proof.
  unfold forward_to_external_api, bind, emit, ret; cbn.
  destruct (client data) as [e | rb]; [reflexivity |].
  destruct (resp_json from_slice rb); reflexivity.
Qed.

(** The handler looks at nothing of a request but its method, its path,
    its first content-type header and its body: two requests that agree
    on these get the same response and cause the same effects. *)
Theorem handle_request_ignores_other_headers (req1 req2 : Request)
  (client : Client) (t : list Event) :
  req_method req1 = req_method req2 -> req_path req1 = req_path req2 ->
  header_get "content-type" (req_headers req1) =
    header_get "content-type" (req_headers req2) ->
  req_body req1 = req_body req2 ->
  handle_request from_slice to_string_pretty req1 client t =
  handle_request from_slice to_string_pretty req2 client t.
Proof.
  intros Hm Hp Hc Hb.
  unfold handle_request, is_json_content_type, read_body, bind, emit, ret.
  rewrite Hm, Hp, Hc, Hb; reflexivity.
Qed.

(** The body matters only through the value it parses to: two bodies
    that serde_json parses to the same result (the same value, or both a
    parse error) get the same response and cause the same effects. *)
Theorem handle_request_depends_on_parsed_body (req1 req2 : Request)
  (b1 b2 : Bytes) (client : Client) (t : list Event) :
  req_method req1 = req_method req2 -> req_path req1 = req_path req2 ->
  header_get "content-type" (req_headers req1) =
    header_get "content-type" (req_headers req2) ->
  req_body req1 = BodyBytes b1 -> req_body req2 = BodyBytes b2 ->
  from_slice b1 = from_slice b2 ->
  handle_request from_slice to_string_pretty req1 client t =
  handle_request from_slice to_string_pretty req2 client t.
Proof.
  intros Hm Hp Hc Hb1 Hb2 Hv.
  unfold handle_request, is_json_content_type, read_body, parse_json, bind, emit, ret.
  rewrite Hm, Hp, Hc, Hb1, Hb2, Hv; reflexivity.
Qed.


(** Once the client is built, the first output is the line
    "Listening on http://127.0.0.1:3000", printed before the socket is
    bound: when binding fails the line has already been printed and the
    process then panics with "error binding to 127.0.0.1:3000: " and the
    error. *)
Theorem main_announces_before_bind (client : Client) (bind_err : option string)
  (conns : list (list Request)) (stop : option string) :
  exists rest,
    main from_slice to_string_pretty (Ok client) bind_err conns stop =
      Stdout "Listening on http://127.0.0.1:3000" :: rest /\
    (forall e, bind_err = Some e ->
       rest = [Panic ("error binding to 127.0.0.1:3000: " ++ e)]).
Proof.
  eexists; split; [reflexivity |].
  intros e ->; reflexivity.
Qed.

(** When serving ends with an error, the error is reported on standard
    error as "Server error: " and its text, as the last output, and the
    process never panics. *)
Theorem main_server_error_reported (client : Client)
  (conns : list (list Request)) (e : string) :
  exists pre,
    main from_slice to_string_pretty (Ok client) None conns (Some e) =
      (pre ++ [Stderr ("Server error: " ++ e)])%list /\
    forall m, ~ In (Panic m) (main from_slice to_string_pretty (Ok client) None conns (Some e)).
Proof.
  exists (Stdout ("Listening on http://" ++ show_addr main_addr) ::
          Bound main_addr ::
          concat (map (fun conn => map (fun r => Handled r
                         (respond from_slice to_string_pretty r client)) conn) conns)).
  split; [reflexivity |].
  intros m H; cbn in H.
  destruct H as [H | [H | H]]; try discriminate.
  apply in_app_or in H; destruct H as [H | [H | []]]; [| discriminate].
  apply in_concat in H; destruct H as (outs & Hconn & Hin).
  apply in_map_iff in Hconn; destruct Hconn as (conn & <- & _).
  apply in_map_iff in Hin; destruct Hin as (r & Heq & _); discriminate.
Qed.

End Extras.

(** ** Runs of the further properties *)

Lemma is_json_content_type_first_header_witness :
  is_json_content_type
    (mkRequest "POST" "/hello"
       [("accept", "*/*"); ("content-type", "text/plain");
        ("content-type", "application/json")] (BodyBytes "null")) = false.
Proof.
  destruct (is_json_content_type _) eqn:H; [| reflexivity].
  apply (is_json_content_type_first_header _ [("accept", "*/*")]
           [("content-type", "application/json")] "text/plain") in H;
    [discriminate | reflexivity | repeat constructor; discriminate].
Defined.

Lemma is_json_content_type_absent_witness :
  is_json_content_type
    (mkRequest "POST" "/hello" [("accept", "application/json")] (BodyBytes "null")) = false.
Proof.
  apply is_json_content_type_absent; repeat constructor; discriminate.
Defined.

Lemma handle_request_ignores_other_headers_witness :
  handle_request sample_from_slice sample_to_string_pretty
    (mkRequest "POST" "/hello" [("accept", "*/*"); ("content-type", "application/json")]
       (BodyBytes "null")) true_client [] =
  handle_request sample_from_slice sample_to_string_pretty
    (hello_request "application/json" (BodyBytes "null")) true_client [].
Proof.
  apply handle_request_ignores_other_headers; reflexivity.
Defined.

Lemma handle_request_depends_on_parsed_body_witness :
  handle_request
    (fun b => if String.eqb b "null" || String.eqb b " null" then Some Null else None)
    sample_to_string_pretty
    (hello_request "application/json" (BodyBytes "null")) true_client [] =
  handle_request
    (fun b => if String.eqb b "null" || String.eqb b " null" then Some Null else None)
    sample_to_string_pretty
    (hello_request "application/json" (BodyBytes " null")) true_client [].
Proof.
  apply (handle_request_depends_on_parsed_body _ _ _ _ "null" " null");
    reflexivity.
Defined.


Lemma main_announces_before_bind_witness :
  exists rest,
    main sample_from_slice sample_to_string_pretty (Ok true_client)
      (Some "address in use") [] None =
      Stdout "Listening on http://127.0.0.1:3000" :: rest /\
    (forall e, Some "address in use" = Some e ->
       rest = [Panic ("error binding to 127.0.0.1:3000: " ++ e)]).
Proof.
  exact (main_announces_before_bind sample_from_slice sample_to_string_pretty
           true_client (Some "address in use") [] None).
Defined.

Lemma main_server_error_reported_witness :
  exists pre,
    main sample_from_slice sample_to_string_pretty (Ok true_client) None
      [[hello_request "application/json" (BodyBytes "null")]] (Some "accept failed") =
      (pre ++ [Stderr "Server error: accept failed"])%list /\
    forall m, ~ In (Panic m)
      (main sample_from_slice sample_to_string_pretty (Ok true_client) None
         [[hello_request "application/json" (BodyBytes "null")]] (Some "accept failed")).
Proof.
  exact (main_server_error_reported sample_from_slice sample_to_string_pretty
           true_client [[hello_request "application/json" (BodyBytes "null")]]
           "accept failed").
Defined.
